(** * The user-directory view of [src/App.tsx]

    A shallow embedding of the single React component of the repository:
    the four collection-client functions ([fetchUsers], [addUser],
    [updateUser], [deleteUser]), the component state held by [useState]
    and by the query cache, the three mutation hooks with their
    callbacks, the event handlers and the rendered page.

    The component is event driven.  Every callback of the source is a
    function [World -> World]; the events that reach the component (user
    input, the confirmation dialog resolving, a network call settling)
    are the constructors of [Event], and [step] dispatches an event to
    the callback the source registers for it. *)

From stdpp Require Import strings.
From stdpp Require Import base option list.

(** ** Data model (lines 6-17) *)

Module User.
Record t := mk { id : string; name : string; email : string }.
End User.
Abbreviation User := User.t.

Module NewUser.
Record t := mk { name : string; email : string }.
End NewUser.
Abbreviation NewUser := NewUser.t.

(** The [Error] objects of the source are only ever read through
    [error.message]. *)
Record Error := { message : string }.

#[global] Instance User_eq_dec : EqDecision User.
Proof. solve_decision. Defined.
#[global] Instance NewUser_eq_dec : EqDecision NewUser.
Proof. solve_decision. Defined.
#[global] Instance Error_eq_dec : EqDecision Error.
Proof. solve_decision. Defined.

Definition API_URL : string :=
  "https://68466fef7dbda7ee7aaf060c.mockapi.io/user".

(** ** The transport

    One [axios] call is one request; the call either fulfils with the
    response body or rejects with an [Error]. *)

Inductive Method := GET | POST | PUT | DELETE.

Record Request := { method : Method; url : string; data : option NewUser }.

#[global] Instance Method_eq_dec : EqDecision Method.
Proof. solve_decision. Defined.
#[global] Instance Request_eq_dec : EqDecision Request.
Proof. solve_decision. Defined.

Definition axios_get (u : string) : Request :=
  {| method := GET; url := u; data := None |}.
Definition axios_post (u : string) (body : NewUser) : Request :=
  {| method := POST; url := u; data := Some body |}.
Definition axios_put (u : string) (body : NewUser) : Request :=
  {| method := PUT; url := u; data := Some body |}.
Definition axios_delete (u : string) : Request :=
  {| method := DELETE; url := u; data := None |}.

Inductive Settled (A : Type) : Type :=
| Fulfilled (value : A)
| Rejected (reason : Error).
Arguments Fulfilled {A} value.
Arguments Rejected {A} reason.

(** Each client function of the source is [async], awaits exactly one
    [axios] call and returns a value computed from the response: a
    request together with the continuation run on the response body.  A
    rejected call rejects the function ([await] without [try]). *)
Record Async (R A : Type) : Type :=
  { request : Request; resume : R -> A }.
Arguments request {R A} _.
Arguments resume {R A} _ _.

Definition await {R A : Type} (p : Async R A) (reply : Settled R) : Settled A :=
  match reply with
  | Fulfilled body => Fulfilled (resume p body)
  | Rejected e => Rejected e
  end.

(** ** Collection client (lines 19-40) *)

Definition fetchUsers : Async (list User) (list User) :=
  {| request := axios_get API_URL; resume := fun body => body |}.

Definition addUser (newUser : NewUser) : Async User User :=
  {| request := axios_post API_URL newUser; resume := fun body => body |}.

(** The argument type [{ id: string } & NewUser] has the fields of
    [User]; the destructuring [{ id, ...user }] splits it again. *)
Definition updateUser (variables : User) : Async User User :=
  let id := User.id variables in
  let user := NewUser.mk (User.name variables) (User.email variables) in
  {| request := axios_put (API_URL +:+ "/" +:+ id) user;
     resume := fun body => body |}.

(** The response body of [axios.delete] is not looked at. *)
Definition deleteUser {R : Type} (id : string) : Async R string :=
  {| request := axios_delete (API_URL +:+ "/" +:+ id);
     resume := fun _ => id |}.

(** ** Component state (lines 43-56)

    The four [useState] cells, the query [["users"]] of [useQuery]
    ([users] is its [data], [error] its [error]), the mutations that are
    in flight and the log of the network calls issued so far. *)

Inductive Pending :=
| addPending (variables : NewUser)
| updatePending (variables : User)
| deletePending (variables : string).

Record World := {
  newUser : NewUser;
  editingUser : option User;
  errorMessage : option string;
  deletingId : option string;
  users : option (list User);
  error : option Error;
  isFetching : bool;
  mutations : list Pending;
  network : list Request
}.

Definition setNewUser (v : NewUser) (w : World) : World :=
  {| newUser := v; editingUser := editingUser w;
     errorMessage := errorMessage w; deletingId := deletingId w;
     users := users w; error := error w; isFetching := isFetching w;
     mutations := mutations w; network := network w |}.

Definition setEditingUser (v : option User) (w : World) : World :=
  {| newUser := newUser w; editingUser := v;
     errorMessage := errorMessage w; deletingId := deletingId w;
     users := users w; error := error w; isFetching := isFetching w;
     mutations := mutations w; network := network w |}.

Definition setErrorMessage (v : option string) (w : World) : World :=
  {| newUser := newUser w; editingUser := editingUser w;
     errorMessage := v; deletingId := deletingId w;
     users := users w; error := error w; isFetching := isFetching w;
     mutations := mutations w; network := network w |}.

Definition setDeletingId (v : option string) (w : World) : World :=
  {| newUser := newUser w; editingUser := editingUser w;
     errorMessage := errorMessage w; deletingId := v;
     users := users w; error := error w; isFetching := isFetching w;
     mutations := mutations w; network := network w |}.

(** The query cache entry after a fetch has settled. *)
Definition setQuery (d : option (list User)) (e : option Error) (w : World)
  : World :=
  {| newUser := newUser w; editingUser := editingUser w;
     errorMessage := errorMessage w; deletingId := deletingId w;
     users := d; error := e; isFetching := false;
     mutations := mutations w; network := network w |}.

(** A request leaves the client. *)
Definition send (r : Request) (w : World) : World :=
  {| newUser := newUser w; editingUser := editingUser w;
     errorMessage := errorMessage w; deletingId := deletingId w;
     users := users w; error := error w; isFetching := isFetching w;
     mutations := mutations w; network := network w ++ [r] |}.

Definition setMutations (l : list Pending) (w : World) : World :=
  {| newUser := newUser w; editingUser := editingUser w;
     errorMessage := errorMessage w; deletingId := deletingId w;
     users := users w; error := error w; isFetching := isFetching w;
     mutations := l; network := network w |}.

Definition startFetching (w : World) : World :=
  {| newUser := newUser w; editingUser := editingUser w;
     errorMessage := errorMessage w; deletingId := deletingId w;
     users := users w; error := error w; isFetching := true;
     mutations := mutations w; network := network w |}.

(** Statements of a callback run one after the other. *)
Definition andThen (f g : World -> World) : World -> World :=
  fun w => g (f w).
Infix ">>>" := andThen (at level 61, left associativity).

(** ** The query client

    [invalidateQueries] on the mounted query [["users"]] starts a refetch
    with [fetchUsers]; a fetch that was still in flight is superseded, so
    one flag records that a fetch is awaited.  The cached [data] stays in
    place until the refetch settles. *)
Definition invalidateQueries : World -> World :=
  startFetching >>> send (request fetchUsers).

(** [useMutation]: the mutation function and the two callbacks given in
    the options; [pending] is the entry under which a started mutation
    is kept until it settles. *)
Record UseMutation (V R A : Type) : Type := {
  mutationFn : V -> Async R A;
  onSuccess : World -> World;
  onError : Error -> World -> World;
  pending : V -> Pending
}.
Arguments mutationFn {V R A} _ _.
Arguments onSuccess {V R A} _ _.
Arguments onError {V R A} _ _ _.
Arguments pending {V R A} _ _.

(** [m.mutate(variables)]: the mutation function is called, its request
    leaves the client and the mutation is in flight. *)
Definition mutate {V R A : Type} (m : UseMutation V R A) (variables : V)
  : World -> World :=
  send (request (mutationFn m variables))
  >>> (fun w => setMutations (mutations w ++ [pending m variables]) w).

(** The call of a mutation settles: the mutation function resumes and the
    hook runs [onSuccess] or [onError]; the result value itself is not
    used by either callback of the source. *)
Definition settle {V R A : Type} (m : UseMutation V R A) (variables : V)
    (reply : Settled R) : World -> World :=
  match await (mutationFn m variables) reply with
  | Fulfilled _ => onSuccess m
  | Rejected e => onError m e
  end.

(** ** The mutation hooks (lines 58-113)

    [Swal.fire] in the success callbacks only shows a popup that closes
    by itself; it touches no state of the component. *)

Definition addMutation : UseMutation NewUser User User :=
  {| mutationFn := addUser;
     onSuccess := invalidateQueries >>> setErrorMessage None;
     onError := fun error =>
       setErrorMessage (Some ("Qo‘shishda xato: " +:+ message error));
     pending := addPending |}.

Definition updateMutation : UseMutation User User User :=
  {| mutationFn := updateUser;
     onSuccess :=
       invalidateQueries >>> setEditingUser None >>> setErrorMessage None;
     onError := fun error =>
       setErrorMessage (Some ("Yangilashda xato: " +:+ message error));
     pending := updatePending |}.

Definition deleteMutation : UseMutation string unit string :=
  {| mutationFn := deleteUser;
     onSuccess :=
       invalidateQueries >>> setErrorMessage None >>> setDeletingId None;
     onError := fun error =>
       setErrorMessage (Some ("O‘chirishda xato: " +:+ message error))
       >>> setDeletingId None;
     pending := deletePending |}.

(** [isPending] of the add and of the update hook.  The submit control is
    disabled while either is pending (line 238), so at most one of these
    mutations is in flight ([one_submission] below) and "the hook's
    latest mutation is pending" is "one of its mutations is in flight". *)
Definition is_add (p : Pending) : bool :=
  match p with addPending _ => true | _ => false end.
Definition is_update (p : Pending) : bool :=
  match p with updatePending _ => true | _ => false end.

Definition addMutation_isPending (w : World) : bool :=
  existsb is_add (mutations w).
Definition updateMutation_isPending (w : World) : bool :=
  existsb is_update (mutations w).

(** ** Event handlers (lines 115-153) *)

Definition handleAddOrUpdate : World -> World := fun w =>
  ((match editingUser w with
    | Some editing =>
        mutate updateMutation
          (User.mk (User.id editing)
                   (NewUser.name (newUser w)) (NewUser.email (newUser w)))
    | None => mutate addMutation (newUser w)
    end)
   >>> setNewUser (NewUser.mk "" "")) w.

Definition handleEdit (user : User) : World -> World :=
  setEditingUser (Some user)
  >>> setNewUser (NewUser.mk (User.name user) (User.email user))
  >>> setErrorMessage None.

Definition handleClearForm : World -> World :=
  setNewUser (NewUser.mk "" "")
  >>> setEditingUser None
  >>> setErrorMessage None.

(** The value the confirmation dialog resolves with. *)
Record SweetAlertResult := { isConfirmed : bool }.

(** [handleDelete] opens the dialog and does nothing else; this is the
    [then] callback, run when the dialog resolves with [result]. *)
Definition handleDelete (id : string) (result : SweetAlertResult)
  : World -> World :=
  if isConfirmed result
  then setDeletingId (Some id) >>> mutate deleteMutation id
  else fun w => w.

(** The [onChange] handlers of the two inputs (lines 213 and 230). *)
Definition onChangeName (value : string) : World -> World := fun w =>
  setNewUser (NewUser.mk value (NewUser.email (newUser w))) w.
Definition onChangeEmail (value : string) : World -> World := fun w =>
  setNewUser (NewUser.mk (NewUser.name (newUser w)) value) w.

(** ** Rendering (lines 155-334) *)

Record Row := {
  key : string;
  row_name : string;
  row_email : string;
  delete_disabled : bool
}.

Record Page := {
  heading : string;
  banner : option string;
  name_value : string;
  email_value : string;
  submit_disabled : bool;
  rows : list Row
}.

Inductive Screen :=
| Spinner
| QueryFailed (text : string)
| Form (p : Page).

(** [isLoading] of the query: the first fetch, no data yet. *)
Definition isLoading (w : World) : bool :=
  isFetching w && bool_decide (users w = None).

Definition row (w : World) (user : User) : Row :=
  {| key := User.id user;
     row_name := User.name user;
     row_email := User.email user;
     delete_disabled := bool_decide (deletingId w = Some (User.id user)) |}.

(** [errorMessage && <div>...</div>]: [null] and the empty string render
    nothing. *)
Definition page (w : World) : Page :=
  {| heading :=
       match editingUser w with
       | Some _ => "Foydalanuvchini tahrirlash"
       | None => "Foydalanuvchi qo‘shish"
       end;
     banner :=
       match errorMessage w with
       | Some text => if bool_decide (text = "") then None else Some text
       | None => None
       end;
     name_value := NewUser.name (newUser w);
     email_value := NewUser.email (newUser w);
     submit_disabled := addMutation_isPending w || updateMutation_isPending w;
     rows :=
       match users w with
       | Some l => row w <$> l
       | None => []
       end |}.

Definition render (w : World) : Screen :=
  if isLoading w then Spinner
  else match error w with
       | Some e => QueryFailed ("Xatolik: " +:+ message e)
       | None => Form (page w)
       end.

Definition shows_form (w : World) : bool :=
  match render w with Form _ => true | _ => false end.

(** ** Events *)

Inductive Event :=
| InputName (value : string)
| InputEmail (value : string)
| SubmitForm
| ClickClear
| ClickEdit (user : User)
| DeleteDialog (id : string) (result : SweetAlertResult)
| QuerySettles (reply : Settled (list User))
| AddSettles (i : nat) (reply : Settled User)
| UpdateSettles (i : nat) (reply : Settled User)
| DeleteSettles (i : nat) (reply : Settled unit).

(** The mutation at position [i] has settled and is no longer in
    flight. *)
Definition finish (i : nat) (w : World) : World :=
  setMutations (delete i (mutations w)) w.

(** What the component does on an event. *)
Definition fire (ev : Event) (w : World) : World :=
  match ev with
  | InputName value => onChangeName value w
  | InputEmail value => onChangeEmail value w
  | SubmitForm => handleAddOrUpdate w
  | ClickClear => handleClearForm w
  | ClickEdit user => handleEdit user w
  | DeleteDialog id result => handleDelete id result w
  | QuerySettles reply =>
      match await fetchUsers reply with
      | Fulfilled l => setQuery (Some l) None w
      | Rejected e => setQuery (users w) (Some e) w
      end
  | AddSettles i reply =>
      match mutations w !! i with
      | Some (addPending v) => settle addMutation v reply (finish i w)
      | _ => w
      end
  | UpdateSettles i reply =>
      match mutations w !! i with
      | Some (updatePending v) => settle updateMutation v reply (finish i w)
      | _ => w
      end
  | DeleteSettles i reply =>
      match mutations w !! i with
      | Some (deletePending v) => settle deleteMutation v reply (finish i w)
      | _ => w
      end
  end.

(** When an event can reach the component.  The form controls exist only
    while the form is on screen; the submit control is disabled while a
    submission is pending and both inputs are [required]; an edit control
    belongs to a rendered record.  A settlement needs the call it
    settles.  The confirmation dialog may resolve at any later time, so
    its event carries no condition. *)
Definition enabled (w : World) (ev : Event) : bool :=
  match ev with
  | InputName _ | InputEmail _ | ClickClear => shows_form w
  | SubmitForm =>
      shows_form w && negb (submit_disabled (page w))
      && negb (bool_decide (NewUser.name (newUser w) = ""))
      && negb (bool_decide (NewUser.email (newUser w) = ""))
  | ClickEdit user =>
      shows_form w
      && match users w with
         | Some l => bool_decide (user ∈ l)
         | None => false
         end
  | DeleteDialog _ _ => true
  | QuerySettles _ => isFetching w
  | AddSettles i _ =>
      match mutations w !! i with Some (addPending _) => true | _ => false end
  | UpdateSettles i _ =>
      match mutations w !! i with Some (updatePending _) => true | _ => false end
  | DeleteSettles i _ =>
      match mutations w !! i with Some (deletePending _) => true | _ => false end
  end.

Definition step (w : World) (ev : Event) : option World :=
  if enabled w ev then Some (fire ev w) else None.

Fixpoint run (evs : list Event) (w : World) : option World :=
  match evs with
  | [] => Some w
  | ev :: evs' =>
      match step w ev with
      | Some w' => run evs' w'
      | None => None
      end
  end.

(** The component as mounted: empty form, nothing selected, and the
    first fetch of the query on its way. *)
Definition mounted : World :=
  {| newUser := NewUser.mk "" "";
     editingUser := None;
     errorMessage := None;
     deletingId := None;
     users := None;
     error := None;
     isFetching := true;
     mutations := [];
     network := [request fetchUsers] |}.

(** ** Sample data used by the closed examples below *)

Definition ann : User := User.mk "42" "Ann" "ann@x.com".
Definition bob : User := User.mk "7" "Bob" "bob@x.com".
Definition network_error : Error := {| message := "Network Error" |}.

(** The component after its first fetch delivered [l]. *)
Definition loaded (l : list User) : World := setQuery (Some l) None mounted.

(** A confirmed delete of Ann is in flight. *)
Definition deleting_ann : World :=
  handleDelete "42" {| isConfirmed := true |} (loaded [ann; bob]).

(** The same world with the message of an earlier failure still shown. *)
Definition failed_before : World :=
  setErrorMessage (Some "O‘chirishda xato: Network Error") deleting_ann.

(** "Ann" and her address are typed into the empty form. *)
Definition typed_ann : World :=
  onChangeEmail "ann@x.com" (onChangeName "Ann" (loaded [bob])).

(** A create of Ann is submitted, "Bob" is typed while the call is on its
    way, and the call succeeds. *)
Definition typed_meanwhile : World :=
  fire (AddSettles 0 (Fulfilled ann))
    (fire (InputName "Bob") (fire SubmitForm typed_ann)).

(** Ann is chosen and her update submitted; Bob is chosen while that call
    is on its way. *)
Definition chose_bob : World :=
  fire (ClickEdit bob)
    (fire SubmitForm (fire (ClickEdit ann) (loaded [ann; bob]))).

(** ** Observations on traces *)

(** The lists the server delivered to the query along a trace, oldest
    first. *)
Fixpoint delivered (evs : list Event) : list (list User) :=
  match evs with
  | [] => []
  | QuerySettles (Fulfilled l) :: evs' => l :: delivered evs'
  | _ :: evs' => delivered evs'
  end.

(** Successful settlements of a mutation. *)
Definition succeeded (ev : Event) : bool :=
  match ev with
  | AddSettles _ (Fulfilled _)
  | UpdateSettles _ (Fulfilled _)
  | DeleteSettles _ (Fulfilled _) => true
  | _ => false
  end.

Definition is_get (r : Request) : bool := bool_decide (method r = GET).

(** The fetches of the collection among the calls made so far. *)
Definition fetches (w : World) : nat := length (List.filter is_get (network w)).

(** The submissions (creates and updates) that are in flight. *)
Definition is_submission (p : Pending) : bool := is_add p || is_update p.

Definition submissions (w : World) : list Pending :=
  List.filter is_submission (mutations w).

(** ** Shapes of the calls

    The four calls the client functions make: the collection is read and
    extended at [API_URL] itself, a record is replaced and removed at a
    path below it; only POST and PUT carry a body. *)
Definition is_record_path (u : string) : bool :=
  String.prefix (API_URL +:+ "/") u.

Definition well_formed (r : Request) : bool :=
  match method r, data r with
  | GET, None => bool_decide (url r = API_URL)
  | POST, Some _ => bool_decide (url r = API_URL)
  | PUT, Some _ => is_record_path (url r)
  | DELETE, None => is_record_path (url r)
  | _, _ => false
  end.

(** The answer "yes" of the confirmation dialog. *)
Definition yes : SweetAlertResult := {| isConfirmed := true |}.

(** Ann is chosen for editing and renamed in the form. *)
Definition editing_ann : World :=
  onChangeName "Anna" (handleEdit ann (loaded [ann; bob])).

(** ** Basic facts about [step] and the page *)

Lemma step_Some w ev w' :
  step w ev = Some w' <-> enabled w ev = true /\ w' = fire ev w.
Proof.
  unfold step. destruct (enabled w ev); split.
  - intros [= <-]. done.
  - intros [_ ->]. done.
  - discriminate.
  - intros [? _]. discriminate.
Qed.

(** A settlement event is enabled exactly when the mutation it names is
    in flight; [on_step] turns a [step] hypothesis into the equation for
    the new world and, for settlements, finds the mutation. *)
Ltac on_step H :=
  apply step_Some in H; destruct H as [? ->];
  cbn [enabled fire] in *;
  repeat match goal with
  | E : match ?l !! ?i with _ => _ end = true |- _ =>
      let p := fresh "p" in
      destruct (l !! i) as [p|] eqn:?; [destruct p|]; try discriminate E
  end.

Lemma banner_shown w c text :
  errorMessage w = Some (String c text) ->
  banner (page w) = Some (String c text).
Proof. intros E. cbn. rewrite E. done. Qed.

Lemma banner_hidden w : errorMessage w = None -> banner (page w) = None.
Proof. intros E. cbn. rewrite E. done. Qed.

(** ** The collection client *)

(** C9.  [deleteUser] issues one DELETE on the record's path and, when
    that call is fulfilled, returns exactly the id it was invoked with,
    whatever the response body; when the call is rejected it rejects
    with the same error. *)
Theorem C9_deleteUser_returns_id (R : Type) (id : string) (reply : Settled R) :
  request (@deleteUser R id) = axios_delete (API_URL +:+ "/" +:+ id)
  /\ await (deleteUser id) reply =
       match reply with
       | Fulfilled _ => Fulfilled id
       | Rejected e => Rejected e
       end.
Proof. split; [reflexivity|]. destruct reply; reflexivity. Qed.

(** ** The confirmation dialog *)

(** C6.  When the confirmation dialog of a delete request resolves
    without confirmation, the callback leaves the whole world as it was:
    no request is added to the network log, and the deleting marker, the
    cache, the form, the editing selection and the error message are
    unchanged. *)
Theorem C6_unconfirmed_delete_is_noop (id : string) (w : World) :
  handleDelete id {| isConfirmed := false |} w = w
  /\ step w (DeleteDialog id {| isConfirmed := false |}) = Some w.
Proof. split; reflexivity. Qed.

(** ** Editing *)

(** C3.  Choosing a record puts its name and email into the form and
    selects it; the inputs keep the selection; and a submission made
    while the record is selected sends exactly one request, a PUT on the
    path of the selected record's id with the form's current values, and
    starts an update, not a create. *)
Theorem C3_edit_then_submit_updates (user : User) (w w' : World) (v : string) :
  editingUser w' = Some user ->
  (name_value (page (handleEdit user w)) = User.name user
   /\ email_value (page (handleEdit user w)) = User.email user
   /\ editingUser (handleEdit user w) = Some user)
  /\ (editingUser (onChangeName v w') = Some user
      /\ editingUser (onChangeEmail v w') = Some user)
  /\ network (handleAddOrUpdate w') =
       network w' ++
       [axios_put (API_URL +:+ "/" +:+ User.id user) (newUser w')]
  /\ mutations (handleAddOrUpdate w') =
       mutations w' ++
       [updatePending
          (User.mk (User.id user)
                   (NewUser.name (newUser w')) (NewUser.email (newUser w')))]
  /\ addMutation_isPending (handleAddOrUpdate w') = addMutation_isPending w'.
Proof.
  intros Hsel. split; [done|]. split; [done|].
  unfold handleAddOrUpdate. rewrite Hsel. cbn.
  destruct (newUser w') as [n e]. cbn. repeat split.
  unfold addMutation_isPending. cbn.
  rewrite existsb_app. cbn. by rewrite !orb_false_r.
Qed.

Lemma C3_witness :
  editingUser (handleEdit ann (loaded [ann; bob])) = Some ann
  /\ network (handleAddOrUpdate (onChangeName "Anna" (handleEdit ann (loaded [ann; bob])))) =
       [axios_get API_URL;
        axios_put (API_URL +:+ "/42") (NewUser.mk "Anna" "ann@x.com")].
Proof.
  split; [reflexivity|].
  apply (C3_edit_then_submit_updates ann (loaded [ann; bob])
           (onChangeName "Anna" (handleEdit ann (loaded [ann; bob]))) "").
  reflexivity.
Defined.

(** ** Outcomes of the mutations *)

(** C10.  Whenever a create, an update or a delete settles successfully,
    the error message state is [null] afterwards and no banner is shown,
    whatever message was there before. *)
Theorem C10_success_clears_error (w : World) (ev : Event) (w' : World) :
  step w ev = Some w' ->
  succeeded ev = true ->
  errorMessage w' = None /\ banner (page w') = None.
Proof.
  intros Hstep Hok.
  assert (errorMessage w' = None) as E.
  { destruct ev as [| | | | | | |i [r|e]|i [r|e]|i [r|e]];
      try discriminate Hok; on_step Hstep; reflexivity. }
  split; [exact E|]. by apply banner_hidden.
Qed.

Lemma C10_witness :
  step failed_before (DeleteSettles 0 (Fulfilled ()))
  = Some (fire (DeleteSettles 0 (Fulfilled ())) failed_before)
  /\ errorMessage failed_before = Some "O‘chirishda xato: Network Error"
  /\ errorMessage (fire (DeleteSettles 0 (Fulfilled ())) failed_before) = None.
Proof.
  split; [reflexivity|]. split; [reflexivity|].
  apply (C10_success_clears_error
           failed_before (DeleteSettles 0 (Fulfilled ()))); reflexivity.
Defined.

(** C8.  When a delete fails, the deleting marker is [null] afterwards,
    so the delete control of every rendered record is enabled again, and
    the failure message is shown in the banner. *)
Theorem C8_failed_delete_clears_marker
    (w : World) (i : nat) (e : Error) (w' : World) :
  step w (DeleteSettles i (Rejected e)) = Some w' ->
  deletingId w' = None
  /\ Forall (fun r => delete_disabled r = false) (rows (page w'))
  /\ errorMessage w' = Some ("O‘chirishda xato: " +:+ message e)
  /\ banner (page w') = Some ("O‘chirishda xato: " +:+ message e).
Proof.
  intros Hstep. on_step Hstep.
  split; [reflexivity|]. split; [|split; reflexivity].
  cbn. destruct (users w) as [l|]; cbn; [|constructor].
  apply Forall_fmap, Forall_forall. intros u _. reflexivity.
Qed.

Lemma C8_witness :
  step deleting_ann (DeleteSettles 0 (Rejected network_error))
  = Some (fire (DeleteSettles 0 (Rejected network_error)) deleting_ann)
  /\ deletingId deleting_ann = Some "42"
  /\ deletingId (fire (DeleteSettles 0 (Rejected network_error)) deleting_ann)
     = None.
Proof.
  split; [reflexivity|]. split; [reflexivity|].
  apply (C8_failed_delete_clears_marker deleting_ann 0 network_error).
  reflexivity.
Defined.

(** C5, as the code has it.  When a create, an update or a delete fails,
    the banner shows the fixed prefix of that operation followed by the
    transport's message text, unaltered. *)
Theorem C5_failure_message_prefixed (w : World) (ev : Event) (w' : World) :
  step w ev = Some w' ->
  match ev with
  | AddSettles _ (Rejected e) =>
      banner (page w') = Some ("Qo‘shishda xato: " +:+ message e)
  | UpdateSettles _ (Rejected e) =>
      banner (page w') = Some ("Yangilashda xato: " +:+ message e)
  | DeleteSettles _ (Rejected e) =>
      banner (page w') = Some ("O‘chirishda xato: " +:+ message e)
  | _ => True
  end.
Proof.
  intros Hstep.
  destruct ev as [| | | | | | |i [r|e]|i [r|e]|i [r|e]]; try exact I;
    on_step Hstep; reflexivity.
Qed.

Lemma C5_witness :
  step (handleAddOrUpdate typed_ann) (AddSettles 0 (Rejected network_error))
  = Some (fire (AddSettles 0 (Rejected network_error))
            (handleAddOrUpdate typed_ann))
  /\ banner (page (fire (AddSettles 0 (Rejected network_error))
                     (handleAddOrUpdate typed_ann)))
     = Some "Qo‘shishda xato: Network Error".
Proof.
  split; [reflexivity|].
  apply (C5_failure_message_prefixed
           (handleAddOrUpdate typed_ann)
           (AddSettles 0 (Rejected network_error))).
  reflexivity.
Defined.

(** The displayed text of a failed delete is not the transport's message
    text: it carries the prefix of the operation. *)
Lemma C5_counterexample :
  step deleting_ann (DeleteSettles 0 (Rejected network_error))
  = Some (fire (DeleteSettles 0 (Rejected network_error)) deleting_ann)
  /\ banner (page (fire (DeleteSettles 0 (Rejected network_error))
                     deleting_ann))
     = Some "O‘chirishda xato: Network Error"
  /\ banner (page (fire (DeleteSettles 0 (Rejected network_error))
                     deleting_ann))
     <> Some (message network_error).
Proof. split; [reflexivity|]. split; [reflexivity|]. discriminate. Qed.

(** ** A failed create *)

(** C1, as the code has it.  A create is submitted and its call fails:
    the POST carried the submitted values, the cache is what it was
    before the submission, the banner shows the failure's message text
    behind the create prefix, and the form fields are empty, because the
    submission itself cleared them and the failure does not bring the
    submitted values back. *)
Theorem C1_failed_create_keeps_cache
    (w w1 : World) (e : Error) (w2 : World) :
  editingUser w = None ->
  step w SubmitForm = Some w1 ->
  step w1 (AddSettles (length (mutations w)) (Rejected e)) = Some w2 ->
  network w1 = network w ++ [axios_post API_URL (newUser w)]
  /\ users w2 = users w
  /\ banner (page w2) = Some ("Qo‘shishda xato: " +:+ message e)
  /\ newUser w1 = NewUser.mk "" ""
  /\ newUser w2 = NewUser.mk "" "".
Proof.
  intros Hnew H1 H2.
  apply step_Some in H1 as [_ ->].
  apply step_Some in H2 as [_ ->].
  cbn [fire]. unfold handleAddOrUpdate. rewrite Hnew. cbn.
  rewrite lookup_app_r, Nat.sub_diag by done. cbn.
  repeat split.
Qed.

Lemma C1_witness :
  editingUser typed_ann = None
  /\ step typed_ann SubmitForm = Some (fire SubmitForm typed_ann)
  /\ users (fire (AddSettles 0 (Rejected network_error))
              (fire SubmitForm typed_ann)) = Some [bob]
  /\ banner (page (fire (AddSettles 0 (Rejected network_error))
                     (fire SubmitForm typed_ann)))
     = Some "Qo‘shishda xato: Network Error".
Proof.
  split; [reflexivity|]. split; [reflexivity|].
  pose proof (C1_failed_create_keeps_cache
                typed_ann (fire SubmitForm typed_ann) network_error
                (fire (AddSettles 0 (Rejected network_error))
                   (fire SubmitForm typed_ann))
                eq_refl eq_refl eq_refl) as (_ & Hcache & Hbanner & _).
  split; [exact Hcache | exact Hbanner].
Defined.

(** After a create of "Ann" failed, the form does not hold the submitted
    values any more: both fields are empty. *)
Lemma C1_counterexample :
  editingUser typed_ann = None
  /\ newUser typed_ann = NewUser.mk "Ann" "ann@x.com"
  /\ run [SubmitForm; AddSettles 0 (Rejected network_error)] typed_ann
     = Some (fire (AddSettles 0 (Rejected network_error))
               (fire SubmitForm typed_ann))
  /\ newUser (fire (AddSettles 0 (Rejected network_error))
                (fire SubmitForm typed_ann)) = NewUser.mk "" ""
  /\ newUser (fire (AddSettles 0 (Rejected network_error))
                (fire SubmitForm typed_ann)) <> newUser typed_ann.
Proof. repeat split; try reflexivity. discriminate. Qed.

(** ** A confirmed delete *)

(** C4.  The dialog of a delete request on [id] is confirmed, the call
    succeeds and the refetch it triggers delivers a list without [id]:
    the calls made are exactly one DELETE on the path of [id] followed by
    one GET of the collection, the marker is set while the delete is in
    flight, and the rendered list is the delivered one, with no record
    of that id. *)
Theorem C4_confirmed_delete_then_refresh
    (id : string) (w w1 w2 w3 : World) (l : list User) :
  step w (DeleteDialog id {| isConfirmed := true |}) = Some w1 ->
  step w1 (DeleteSettles (length (mutations w)) (Fulfilled ())) = Some w2 ->
  step w2 (QuerySettles (Fulfilled l)) = Some w3 ->
  id ∉ (User.id <$> l) ->
  network w1 = network w ++ [axios_delete (API_URL +:+ "/" +:+ id)]
  /\ deletingId w1 = Some id
  /\ network w3 =
       network w ++
       [axios_delete (API_URL +:+ "/" +:+ id); axios_get API_URL]
  /\ users w3 = Some l
  /\ id ∉ (key <$> rows (page w3)).
Proof.
  intros H1 H2 H3 Hgone.
  apply step_Some in H1 as [_ ->].
  apply step_Some in H2 as [_ ->].
  apply step_Some in H3 as [_ ->].
  cbn. rewrite lookup_app_r, Nat.sub_diag by done. cbn.
  rewrite <- app_assoc. cbn. repeat split.
  rewrite <- list_fmap_compose. exact Hgone.
Qed.

Lemma C4_witness :
  step (loaded [ann; bob]) (DeleteDialog "42" {| isConfirmed := true |})
  = Some deleting_ann
  /\ ("42" ∉ (User.id <$> [bob]))
  /\ network (fire (QuerySettles (Fulfilled [bob]))
                (fire (DeleteSettles 0 (Fulfilled ())) deleting_ann))
     = [axios_get API_URL; axios_delete (API_URL +:+ "/42");
        axios_get API_URL]
  /\ "42" ∉ (key <$> rows (page (fire (QuerySettles (Fulfilled [bob]))
                                   (fire (DeleteSettles 0 (Fulfilled ()))
                                      deleting_ann)))).
Proof.
  assert ("42" ∉ (User.id <$> [bob])) as Hgone.
  { intros [E|E]%elem_of_cons; [discriminate E | by apply elem_of_nil in E]. }
  split; [reflexivity|]. split; [exact Hgone|].
  pose proof (C4_confirmed_delete_then_refresh
                "42" (loaded [ann; bob]) deleting_ann
                (fire (DeleteSettles 0 (Fulfilled ())) deleting_ann)
                (fire (QuerySettles (Fulfilled [bob]))
                   (fire (DeleteSettles 0 (Fulfilled ())) deleting_ann))
                [bob] eq_refl eq_refl eq_refl Hgone) as (_ & _ & Hnet & _ & Hrows).
  split; [exact Hnet | exact Hrows].
Defined.

(** ** The cache along a trace *)

Lemma step_users w ev w' :
  step w ev = Some w' ->
  users w' =
    match ev with
    | QuerySettles (Fulfilled l) => Some l
    | _ => users w
    end.
Proof.
  intros H. destruct ev as [| | | | |id [[]]|[l|e]|i [r|e]|i [r|e]|i [r|e]];
    on_step H; try reflexivity.
  unfold handleAddOrUpdate. destruct (editingUser w); reflexivity.
Qed.

Lemma fetches_send r w :
  fetches (send r w) = fetches w + (if is_get r then 1 else 0).
Proof.
  unfold fetches. cbn. rewrite List.filter_app, length_app. cbn.
  destruct (is_get r); reflexivity.
Qed.

Lemma step_fetches w ev w' :
  step w ev = Some w' ->
  fetches w' = fetches w + (if succeeded ev then 1 else 0).
Proof.
  intros H. destruct ev as [| | | | |id [[]]|[l|e]|i [r|e]|i [r|e]|i [r|e]];
    on_step H; cbn [succeeded];
    try (unfold fetches; cbn; lia);
    try (change (fetches (send (axios_get API_URL) w) = fetches w + 1);
         rewrite fetches_send; reflexivity).
  - unfold handleAddOrUpdate. destruct (editingUser w).
    + change (fetches (send (request (updateUser
               (User.mk (User.id t) (NewUser.name (newUser w))
                  (NewUser.email (newUser w))))) w) = fetches w + 0).
      rewrite fetches_send. reflexivity.
    + change (fetches (send (request (addUser (newUser w))) w) = fetches w + 0).
      rewrite fetches_send. reflexivity.
  - change (fetches (send (request (@deleteUser unit id)) w) = fetches w + 0).
    rewrite fetches_send. reflexivity.
Qed.

Lemma rendered_keys w :
  key <$> rows (page w) =
    match users w with Some l => User.id <$> l | None => [] end.
Proof.
  cbn. destruct (users w) as [l|]; [|reflexivity].
  rewrite <- list_fmap_compose. reflexivity.
Qed.

(** C2.  Along every sequence of events the cache is never merged: it is
    the list the server delivered last, as delivered (or the cache the
    trace started with when none arrived), and the only fetches issued
    are one per successful mutation.  So the rendered list holds at most
    one record per identifier whenever the lists of the server do. *)
Theorem C2_rendered_list_is_last_delivered
    (evs : list Event) (w0 w : World) :
  run evs w0 = Some w ->
  (forall l, users w0 = Some l -> NoDup (User.id <$> l)) ->
  Forall (fun l => NoDup (User.id <$> l)) (delivered evs) ->
  users w = match last (delivered evs) with
            | Some l => Some l
            | None => users w0
            end
  /\ fetches w = fetches w0 + length (List.filter succeeded evs)
  /\ NoDup (key <$> rows (page w)).
Proof.
  revert w0. induction evs as [|ev evs IH]; intros w0 Hrun H0 Hall.
  - injection Hrun as <-. split; [reflexivity|]. split.
    + cbn. lia.
    + rewrite rendered_keys. destruct (users w0) as [l|];
        [by apply H0 | constructor].
  - cbn [run] in Hrun. destruct (step w0 ev) as [w1|] eqn:Hstep;
      [|discriminate].
    pose proof (step_users _ _ _ Hstep) as Hu.
    pose proof (step_fetches _ _ _ Hstep) as Hf.
    assert (delivered (ev :: evs) =
            match ev with
            | QuerySettles (Fulfilled l) => l :: delivered evs
            | _ => delivered evs
            end) as Hd by (destruct ev as [| | | | | |[l|e]| | |]; reflexivity).
    destruct (IH w1 Hrun) as (IHu & IHf & IHn).
    + intros l Hl. rewrite Hu in Hl.
      destruct ev as [| | | | | |[l'|e]| | |]; try by apply H0.
      injection Hl as <-. rewrite Hd in Hall. by inversion Hall.
    + rewrite Hd in Hall.
      destruct ev as [| | | | | |[l'|e]| | |]; try done. by inversion Hall.
    + split; [|split; [|exact IHn]].
      * rewrite IHu, Hd, Hu.
        destruct ev as [| | | | | |[l'|e]| | |]; try reflexivity.
        rewrite last_cons. destruct (last (delivered evs)); reflexivity.
      * rewrite IHf, Hf. cbn [List.filter].
        destruct (succeeded ev); cbn [length]; lia.
Qed.

Lemma C2_witness :
  run [QuerySettles (Fulfilled [ann; bob]);
       DeleteDialog "42" {| isConfirmed := true |};
       DeleteSettles 0 (Fulfilled ());
       QuerySettles (Fulfilled [bob])] mounted
  = Some (fire (QuerySettles (Fulfilled [bob]))
            (fire (DeleteSettles 0 (Fulfilled ())) deleting_ann))
  /\ users (fire (QuerySettles (Fulfilled [bob]))
              (fire (DeleteSettles 0 (Fulfilled ())) deleting_ann))
     = Some [bob]
  /\ NoDup (key <$> rows (page (fire (QuerySettles (Fulfilled [bob]))
                                  (fire (DeleteSettles 0 (Fulfilled ()))
                                     deleting_ann)))).
Proof.
  split; [reflexivity|].
  assert (NoDup (User.id <$> [bob])) as Hbob.
  { apply NoDup_singleton. }
  assert (NoDup (User.id <$> [ann; bob])) as Hboth.
  { apply NoDup_cons. split; [|exact Hbob].
    intros [E|E]%elem_of_cons; [discriminate E | by apply elem_of_nil in E]. }
  pose proof (C2_rendered_list_is_last_delivered
                [QuerySettles (Fulfilled [ann; bob]);
                 DeleteDialog "42" {| isConfirmed := true |};
                 DeleteSettles 0 (Fulfilled ());
                 QuerySettles (Fulfilled [bob])]
                mounted _ eq_refl) as H.
  destruct H as (Hu & _ & Hn).
  - intros l [=].
  - constructor; [exact Hboth|]. constructor; [exact Hbob|]. constructor.
  - split; [exact Hu | exact Hn].
Defined.

(** ** Submissions in flight *)

Lemma filter_delete_le {A} (f : A -> bool) (l : list A) (i : nat) :
  length (List.filter f (delete i l)) <= length (List.filter f l).
Proof.
  revert i. induction l as [|x l IH]; intros [|i]; simpl; try lia.
  - destruct (f x); simpl; lia.
  - specialize (IH i). destruct (f x); simpl; lia.
Qed.

Lemma filter_delete_hit {A} (f : A -> bool) (l : list A) (i : nat) (p : A) :
  l !! i = Some p -> f p = true ->
  length (List.filter f l) = S (length (List.filter f (delete i l))).
Proof.
  revert i. induction l as [|x l IH]; intros [|i] Hi Hp; try discriminate.
  - injection Hi as ->. simpl. rewrite Hp. reflexivity.
  - simpl in Hi. simpl. specialize (IH i Hi Hp). destruct (f x); simpl; lia.
Qed.

Lemma idle_iff (l : list Pending) :
  existsb is_add l || existsb is_update l = false
  <-> List.filter is_submission l = [].
Proof.
  induction l as [|p l IH]; [done|].
  cbn. unfold is_submission at 1. destruct p; cbn.
  - split; discriminate.
  - rewrite orb_true_r. split; discriminate.
  - exact IH.
Qed.

Lemma settled_idle (l : list Pending) (i : nat) (p : Pending) :
  length (List.filter is_submission l) <= 1 ->
  l !! i = Some p -> is_submission p = true ->
  existsb is_add (delete i l) || existsb is_update (delete i l) = false.
Proof.
  intros Hone Hi Hp. apply idle_iff.
  pose proof (filter_delete_hit is_submission l i p Hi Hp) as Hlen.
  destruct (List.filter is_submission (delete i l)); [done|].
  cbn in Hlen. lia.
Qed.

Lemma enabled_submit w :
  enabled w SubmitForm = true -> submissions w = [].
Proof.
  cbn [enabled]. intros H.
  apply andb_prop in H as [H _]. apply andb_prop in H as [H _].
  apply andb_prop in H as [_ H]. apply negb_true_iff in H.
  by apply idle_iff.
Qed.

Lemma submissions_submit w :
  submissions w = [] -> length (submissions (handleAddOrUpdate w)) = 1.
Proof.
  unfold submissions, handleAddOrUpdate. intros Hidle.
  destruct (editingUser w); cbn; rewrite List.filter_app, Hidle; reflexivity.
Qed.

Lemma step_submissions w ev w' :
  step w ev = Some w' ->
  length (submissions w) <= 1 -> length (submissions w') <= 1.
Proof.
  intros H Hone.
  destruct ev as [| | | | |id [[]]|[l|e]|i [r|e]|i [r|e]|i [r|e]];
    try (on_step H; unfold submissions in *;
         first [ exact Hone
               | eapply Nat.le_trans;
                 [apply filter_delete_le | exact Hone] ]).
  - apply step_Some in H as [Hen ->]. cbn [fire].
    rewrite submissions_submit; [lia | by apply enabled_submit].
  - apply step_Some in H as [_ ->]. unfold submissions in *. cbn.
    rewrite List.filter_app. cbn. rewrite app_nil_r. exact Hone.
Qed.

(** At most one submission is in flight in every world the mounted
    component can reach. *)
Lemma one_submission evs w0 w :
  run evs w0 = Some w ->
  length (submissions w0) <= 1 -> length (submissions w) <= 1.
Proof.
  revert w0. induction evs as [|ev evs IH]; intros w0 Hrun Hone.
  - by injection Hrun as <-.
  - cbn [run] in Hrun. destruct (step w0 ev) as [w1|] eqn:Hstep;
      [|discriminate].
    eapply IH; [exact Hrun|]. by eapply step_submissions.
Qed.

(** ** The form's state machine *)

Lemma submitting_after_submit w :
  submit_disabled (page (handleAddOrUpdate w)) = true.
Proof.
  unfold handleAddOrUpdate. cbn.
  destruct (editingUser w); cbn; rewrite !existsb_app; cbn;
    rewrite ?orb_true_r; reflexivity.
Qed.

(** C7, as the code has it.  In every world the mounted component
    reaches: submitting clears the form fields at once and disables the
    submit control, keeping the selection; when a create or an update
    then succeeds the submit control is enabled again (Idle), the error
    message is cleared, the form fields are left as they are at that
    moment, and an update's success forgets the selection while a
    create's success leaves it; when it fails the control is enabled
    again and the prefixed message is shown, form and selection
    untouched; clearing forgets the selection, choosing a record sets it,
    and no other event changes it. *)
Theorem C7_form_transitions
    (evs : list Event) (w : World) (ev : Event) (w' : World) :
  run evs mounted = Some w ->
  step w ev = Some w' ->
  match ev with
  | SubmitForm =>
      newUser w' = NewUser.mk "" ""
      /\ submit_disabled (page w') = true
      /\ editingUser w' = editingUser w
  | AddSettles _ (Fulfilled _) =>
      submit_disabled (page w') = false
      /\ newUser w' = newUser w
      /\ editingUser w' = editingUser w
      /\ errorMessage w' = None
  | UpdateSettles _ (Fulfilled _) =>
      submit_disabled (page w') = false
      /\ newUser w' = newUser w
      /\ editingUser w' = None
      /\ errorMessage w' = None
  | AddSettles _ (Rejected e) =>
      submit_disabled (page w') = false
      /\ banner (page w') = Some ("Qo‘shishda xato: " +:+ message e)
      /\ newUser w' = newUser w
      /\ editingUser w' = editingUser w
  | UpdateSettles _ (Rejected e) =>
      submit_disabled (page w') = false
      /\ banner (page w') = Some ("Yangilashda xato: " +:+ message e)
      /\ newUser w' = newUser w
      /\ editingUser w' = editingUser w
  | ClickClear => editingUser w' = None
  | ClickEdit user => editingUser w' = Some user
  | _ => editingUser w' = editingUser w
  end.
Proof.
  intros Hrun Hstep.
  assert (length (submissions w) <= 1) as Hone.
  { eapply one_submission; [exact Hrun | cbn; lia]. }
  unfold submissions in Hone.
  destruct ev as [| | | | |id [[]]|[l|e]|i [r|e]|i [r|e]|i [r|e]];
    on_step Hstep; try reflexivity.
  - split; [|split; [apply submitting_after_submit|]];
      unfold handleAddOrUpdate; destruct (editingUser w) eqn:E;
      cbn; rewrite ?E; reflexivity.
  - split; [|repeat split].
    change (existsb is_add (delete i (mutations w))
            || existsb is_update (delete i (mutations w)) = false).
    by eapply settled_idle.
  - split; [|repeat split].
    change (existsb is_add (delete i (mutations w))
            || existsb is_update (delete i (mutations w)) = false).
    by eapply settled_idle.
  - split; [|repeat split].
    change (existsb is_add (delete i (mutations w))
            || existsb is_update (delete i (mutations w)) = false).
    by eapply settled_idle.
  - split; [|repeat split].
    change (existsb is_add (delete i (mutations w))
            || existsb is_update (delete i (mutations w)) = false).
    by eapply settled_idle.
Qed.

Lemma C7_witness :
  run [QuerySettles (Fulfilled [bob]); InputName "Ann";
       InputEmail "ann@x.com"] mounted = Some typed_ann
  /\ step typed_ann SubmitForm = Some (fire SubmitForm typed_ann)
  /\ newUser (fire SubmitForm typed_ann) = NewUser.mk "" ""
  /\ submit_disabled (page (fire SubmitForm typed_ann)) = true
  /\ editingUser (fire SubmitForm typed_ann) = editingUser typed_ann.
Proof.
  split; [reflexivity|]. split; [reflexivity|].
  exact (C7_form_transitions
           [QuerySettles (Fulfilled [bob]); InputName "Ann";
            InputEmail "ann@x.com"]
           typed_ann SubmitForm (fire SubmitForm typed_ann)
           eq_refl eq_refl).
Defined.

(** Two runs against the claim as it is worded.  In the first a create
    succeeds after "Bob" was typed while it was pending: the view is idle
    again but the form is not empty.  In the second Bob is chosen while
    Ann's update is pending; the success of that update forgets the
    selection of Bob, which was neither cleared nor submitted. *)
Lemma C7_counterexample :
  (run [SubmitForm; InputName "Bob"; AddSettles 0 (Fulfilled ann)] typed_ann
   = Some typed_meanwhile
   /\ submit_disabled (page typed_meanwhile) = false
   /\ newUser typed_meanwhile = NewUser.mk "Bob" ""
   /\ newUser typed_meanwhile <> NewUser.mk "" "")
  /\ (run [ClickEdit ann; SubmitForm; ClickEdit bob] (loaded [ann; bob])
      = Some chose_bob
      /\ editingUser chose_bob = Some bob
      /\ step chose_bob (UpdateSettles 0 (Fulfilled ann))
         = Some (fire (UpdateSettles 0 (Fulfilled ann)) chose_bob)
      /\ editingUser (fire (UpdateSettles 0 (Fulfilled ann)) chose_bob)
         = None).
Proof.
  split.
  - repeat split; try reflexivity. discriminate.
  - repeat split; reflexivity.
Qed.

(** * Further properties of the component *)

(** ** Paths of the calls *)

Lemma append_inj_r (s a b : string) : s +:+ a = s +:+ b -> a = b.
Proof. apply (inj (String.app s)). Qed.

Lemma append_empty_r (s : string) : s +:+ "" = s.
Proof.
  induction s as [|c s IH]; [done|].
  change (String c (s +:+ "") = String c s). by rewrite IH.
Qed.

Lemma prefix_append (s t : string) : String.prefix s (s +:+ t) = true.
Proof.
  induction s as [|c s IH]; [by destruct t|].
  change (String.prefix (String c s) (String c (s +:+ t)) = true). cbn.
  destruct (Ascii.ascii_dec c c); [exact IH | done].
Qed.

Lemma record_path_inj (i j : string) :
  API_URL +:+ "/" +:+ i = API_URL +:+ "/" +:+ j -> i = j.
Proof. intros H. apply append_inj_r in H. by injection H. Qed.

Lemma record_path_not_collection (i : string) :
  API_URL +:+ "/" +:+ i <> API_URL.
Proof.
  intros H. rewrite <- (append_empty_r API_URL) in H at 2.
  apply append_inj_r in H. discriminate H.
Qed.

(** X1.  The call of an update and the call of a delete identify their
    record: two updates make the same request only for the same id, name
    and email, two deletes only for the same id, and neither call is ever
    addressed to the collection path that GET and POST use. *)
Theorem X1_calls_identify_their_record (a b : User) (i j : string) :
  bool_decide (request (updateUser a) = request (updateUser b))
  = bool_decide (a = b)
  /\ bool_decide (request (@deleteUser unit i) = request (@deleteUser unit j))
     = bool_decide (i = j)
  /\ bool_decide (url (request (updateUser a)) = API_URL) = false
  /\ bool_decide (url (request (@deleteUser unit i)) = API_URL) = false
  /\ url (request (addUser (NewUser.mk (User.name a) (User.email a))))
     = url (request fetchUsers).
Proof.
  split; [|split; [|split; [|split; [|reflexivity]]]].
  - apply bool_decide_ext. split; [|by intros ->].
    destruct a as [ia na ea], b as [ib nb eb]. intros H.
    pose proof (f_equal url H) as Hu. pose proof (f_equal data H) as Hd.
    apply record_path_inj in Hu. injection Hd as -> ->.
    cbn in Hu. by subst.
  - apply bool_decide_ext. split; [|by intros ->].
    intros H. pose proof (f_equal url H) as Hu.
    by apply record_path_inj in Hu.
  - apply bool_decide_eq_false_2, record_path_not_collection.
  - apply bool_decide_eq_false_2, record_path_not_collection.
Qed.

(** ** Submissions from start to refresh *)

Lemma delete_last (l : list Pending) (p : Pending) :
  delete (length l) (l ++ [p]) = l.
Proof. induction l as [|x l IH]; simpl; [done|]. by rewrite IH. Qed.

Lemma idle_after_own_settlement w :
  enabled w SubmitForm = true ->
  existsb is_add (mutations w) || existsb is_update (mutations w) = false.
Proof. intros H. by apply idle_iff, enabled_submit. Qed.

(** X2.  A create from submission to refresh: the submission sends one
    POST of the form's values to the collection path; its success does
    not put the created record into the cache, it only starts one GET;
    when that GET delivers a list, the page shows exactly that list, with
    an empty form, no banner and the submit control enabled. *)
Theorem X2_create_then_refresh
    (w w1 w2 w3 : World) (created : User) (l : list User) :
  editingUser w = None ->
  step w SubmitForm = Some w1 ->
  step w1 (AddSettles (length (mutations w)) (Fulfilled created)) = Some w2 ->
  step w2 (QuerySettles (Fulfilled l)) = Some w3 ->
  network w3 =
    network w ++ [axios_post API_URL (newUser w); axios_get API_URL]
  /\ users w2 = users w
  /\ isFetching w2 = true
  /\ users w3 = Some l
  /\ key <$> rows (page w3) = User.id <$> l
  /\ name_value (page w3) = ""
  /\ email_value (page w3) = ""
  /\ banner (page w3) = None
  /\ submit_disabled (page w3) = false.
Proof.
  intros Hnew H1 H2 H3.
  apply step_Some in H1 as [Hen ->].
  apply step_Some in H2 as [_ ->].
  apply step_Some in H3 as [_ ->].
  pose proof (idle_after_own_settlement w Hen) as Hidle.
  cbn [fire]. unfold handleAddOrUpdate. rewrite Hnew. cbn.
  rewrite lookup_app_r, Nat.sub_diag by done. cbn.
  rewrite <- app_assoc, delete_last. cbn.
  rewrite <- list_fmap_compose. by repeat split.
Qed.

Lemma X2_witness :
  editingUser typed_ann = None
  /\ step typed_ann SubmitForm = Some (fire SubmitForm typed_ann)
  /\ network (fire (QuerySettles (Fulfilled [bob; ann]))
                (fire (AddSettles 0 (Fulfilled ann))
                   (fire SubmitForm typed_ann)))
     = [axios_get API_URL;
        axios_post API_URL (NewUser.mk "Ann" "ann@x.com");
        axios_get API_URL]
  /\ users (fire (QuerySettles (Fulfilled [bob; ann]))
              (fire (AddSettles 0 (Fulfilled ann))
                 (fire SubmitForm typed_ann)))
     = Some [bob; ann].
Proof.
  split; [reflexivity|]. split; [reflexivity|].
  pose proof (X2_create_then_refresh
                typed_ann (fire SubmitForm typed_ann)
                (fire (AddSettles 0 (Fulfilled ann))
                   (fire SubmitForm typed_ann))
                (fire (QuerySettles (Fulfilled [bob; ann]))
                   (fire (AddSettles 0 (Fulfilled ann))
                      (fire SubmitForm typed_ann)))
                ann [bob; ann] eq_refl eq_refl eq_refl eq_refl)
    as (Hnet & _ & _ & Hu & _).
  split; [exact Hnet | exact Hu].
Defined.

(** X3.  An update from submission to refresh: with a record selected the
    submission sends one PUT of the form's values to the path of the
    selected id and keeps the selection while the call is pending; its
    success leaves edit mode (no selection, the heading of the create
    form) and starts one GET; the delivered list then replaces the
    cache. *)
Theorem X3_update_then_refresh
    (user : User) (w w1 w2 w3 : World) (updated : User) (l : list User) :
  editingUser w = Some user ->
  step w SubmitForm = Some w1 ->
  step w1 (UpdateSettles (length (mutations w)) (Fulfilled updated))
    = Some w2 ->
  step w2 (QuerySettles (Fulfilled l)) = Some w3 ->
  network w3 =
    network w ++
    [axios_put (API_URL +:+ "/" +:+ User.id user) (newUser w);
     axios_get API_URL]
  /\ editingUser w1 = Some user
  /\ heading (page w1) = "Foydalanuvchini tahrirlash"
  /\ users w2 = users w
  /\ editingUser w3 = None
  /\ heading (page w3) = "Foydalanuvchi qo‘shish"
  /\ users w3 = Some l
  /\ newUser w3 = NewUser.mk "" ""
  /\ banner (page w3) = None
  /\ submit_disabled (page w3) = false.
Proof.
  intros Hsel H1 H2 H3.
  apply step_Some in H1 as [Hen ->].
  apply step_Some in H2 as [_ ->].
  apply step_Some in H3 as [_ ->].
  pose proof (idle_after_own_settlement w Hen) as Hidle.
  cbn [fire]. unfold handleAddOrUpdate. rewrite Hsel. cbn.
  rewrite lookup_app_r, Nat.sub_diag by done. cbn.
  rewrite <- app_assoc, delete_last. cbn. rewrite Hsel.
  destruct (newUser w). by repeat split.
Qed.

Lemma X3_witness :
  editingUser editing_ann = Some ann
  /\ step editing_ann SubmitForm = Some (fire SubmitForm editing_ann)
  /\ network (fire (QuerySettles (Fulfilled [bob]))
                (fire (UpdateSettles 0 (Fulfilled ann))
                   (fire SubmitForm editing_ann)))
     = [axios_get API_URL;
        axios_put (API_URL +:+ "/42") (NewUser.mk "Anna" "ann@x.com");
        axios_get API_URL]
  /\ editingUser (fire (QuerySettles (Fulfilled [bob]))
                    (fire (UpdateSettles 0 (Fulfilled ann))
                       (fire SubmitForm editing_ann)))
     = None.
Proof.
  split; [reflexivity|]. split; [reflexivity|].
  pose proof (X3_update_then_refresh
                ann editing_ann (fire SubmitForm editing_ann)
                (fire (UpdateSettles 0 (Fulfilled ann))
                   (fire SubmitForm editing_ann))
                (fire (QuerySettles (Fulfilled [bob]))
                   (fire (UpdateSettles 0 (Fulfilled ann))
                      (fire SubmitForm editing_ann)))
                ann [bob] eq_refl eq_refl eq_refl eq_refl)
    as (Hnet & _ & _ & _ & Hsel & _).
  split; [exact Hnet | exact Hsel].
Defined.

Lemma empty_name_blocks_submit w :
  NewUser.name (newUser w) = "" -> step w SubmitForm = None.
Proof.
  intros H. unfold step. cbn [enabled]. rewrite H.
  rewrite (bool_decide_eq_true_2 ("" = "")) by done. cbn [negb].
  by rewrite andb_false_r.
Qed.

(** X4.  A failed update leaves the component in edit mode with an empty
    form: the selection and the edit heading stay, both fields are empty,
    so the form cannot be submitted as it is, and once new values are
    typed the next submission is again a PUT on the same record. *)
Theorem X4_failed_update_stays_in_edit_mode
    (user : User) (w w1 : World) (e : Error) (w2 : World) (n m : string) :
  editingUser w = Some user ->
  step w SubmitForm = Some w1 ->
  step w1 (UpdateSettles (length (mutations w)) (Rejected e)) = Some w2 ->
  editingUser w2 = Some user
  /\ heading (page w2) = "Foydalanuvchini tahrirlash"
  /\ name_value (page w2) = ""
  /\ email_value (page w2) = ""
  /\ banner (page w2) = Some ("Yangilashda xato: " +:+ message e)
  /\ users w2 = users w
  /\ step w2 SubmitForm = None
  /\ network (handleAddOrUpdate (onChangeEmail m (onChangeName n w2))) =
       network w2 ++
       [axios_put (API_URL +:+ "/" +:+ User.id user) (NewUser.mk n m)].
Proof.
  intros Hsel H1 H2.
  apply step_Some in H1 as [Hen ->].
  apply step_Some in H2 as [_ ->].
  set (W2 := fire (UpdateSettles (length (mutations w)) (Rejected e))
               (fire SubmitForm w)).
  assert (editingUser W2 = Some user
          /\ newUser W2 = NewUser.mk "" ""
          /\ errorMessage W2 = Some ("Yangilashda xato: " +:+ message e)
          /\ users W2 = users w) as (E2 & N2 & M2 & U2).
  { subst W2. cbn [fire]. unfold handleAddOrUpdate. rewrite Hsel. cbn.
    rewrite lookup_app_r, Nat.sub_diag by done. cbn. by rewrite Hsel. }
  clearbody W2.
  split; [exact E2|]. split; [cbn; by rewrite E2|].
  split; [cbn; by rewrite N2|]. split; [cbn; by rewrite N2|].
  split; [by apply banner_shown|]. split; [exact U2|].
  split; [apply empty_name_blocks_submit; by rewrite N2|].
  unfold handleAddOrUpdate. cbn. rewrite E2. reflexivity.
Qed.

Lemma X4_witness :
  editingUser editing_ann = Some ann
  /\ step editing_ann SubmitForm = Some (fire SubmitForm editing_ann)
  /\ editingUser (fire (UpdateSettles 0 (Rejected network_error))
                    (fire SubmitForm editing_ann)) = Some ann
  /\ step (fire (UpdateSettles 0 (Rejected network_error))
             (fire SubmitForm editing_ann)) SubmitForm = None.
Proof.
  split; [reflexivity|]. split; [reflexivity|].
  pose proof (X4_failed_update_stays_in_edit_mode
                ann editing_ann (fire SubmitForm editing_ann) network_error
                (fire (UpdateSettles 0 (Rejected network_error))
                   (fire SubmitForm editing_ann)) "" ""
                eq_refl eq_refl eq_refl)
    as (Hsel & _ & _ & _ & _ & _ & Hblocked & _).
  split; [exact Hsel | exact Hblocked].
Defined.

(** ** Clearing and choosing *)

(** X5.  The clear control empties the form, drops the selection and the
    banner and touches nothing else (cache, deleting marker, calls in
    flight, network log); whatever was selected before, values typed
    after it are submitted as a create: one POST to the collection path
    with exactly those values. *)
Theorem X5_clear_then_submit_creates (w : World) (n m : string) :
  (editingUser (handleClearForm w) = None
   /\ newUser (handleClearForm w) = NewUser.mk "" ""
   /\ banner (page (handleClearForm w)) = None
   /\ heading (page (handleClearForm w)) = "Foydalanuvchi qo‘shish")
  /\ (users (handleClearForm w) = users w
      /\ deletingId (handleClearForm w) = deletingId w
      /\ mutations (handleClearForm w) = mutations w
      /\ isFetching (handleClearForm w) = isFetching w
      /\ network (handleClearForm w) = network w)
  /\ network (handleAddOrUpdate
                (onChangeEmail m (onChangeName n (handleClearForm w))))
     = network w ++ [axios_post API_URL (NewUser.mk n m)]
  /\ mutations (handleAddOrUpdate
                  (onChangeEmail m (onChangeName n (handleClearForm w))))
     = mutations w ++ [addPending (NewUser.mk n m)].
Proof. repeat split. Qed.

(** X6.  How the form handlers compose.  Choosing a record overrides an
    earlier choice and whatever was typed; clearing after a choice is
    the same as clearing; clearing twice is clearing once; of two inputs
    into the same field the later one stays, and the two fields are
    independent of each other. *)
Theorem X6_form_handlers_compose (a b : User) (n m : string) (w : World) :
  handleEdit b (handleEdit a w) = handleEdit b w
  /\ handleEdit a (onChangeEmail m (onChangeName n w)) = handleEdit a w
  /\ handleClearForm (handleEdit a w) = handleClearForm w
  /\ handleClearForm (handleClearForm w) = handleClearForm w
  /\ onChangeName n (onChangeName m w) = onChangeName n w
  /\ onChangeEmail n (onChangeEmail m w) = onChangeEmail n w
  /\ onChangeName n (onChangeEmail m w) = onChangeEmail m (onChangeName n w).
Proof. repeat split. Qed.

(** ** One submission at a time *)

Lemma pending_blocks_submit w :
  submit_disabled (page w) = true -> step w SubmitForm = None.
Proof.
  intros H. unfold step. cbn [enabled]. rewrite H. cbn [negb].
  by rewrite andb_false_r.
Qed.

(** X7.  While a submission is pending no second one can be made: right
    after a submission the submit control is disabled, and it stays
    disabled when new values are typed or a record is chosen. *)
Theorem X7_no_second_submission_while_pending
    (w w1 : World) (n m : string) (user : User) :
  step w SubmitForm = Some w1 ->
  step w1 SubmitForm = None
  /\ step (onChangeEmail m (onChangeName n w1)) SubmitForm = None
  /\ step (onChangeEmail m (onChangeName n (handleEdit user w1))) SubmitForm
     = None.
Proof.
  intros H. apply step_Some in H as [_ ->]. cbn [fire].
  pose proof (submitting_after_submit w) as Hp.
  repeat split; apply pending_blocks_submit; exact Hp.
Qed.

Lemma X7_witness :
  step typed_ann SubmitForm = Some (fire SubmitForm typed_ann)
  /\ step (onChangeEmail "bob@x.com"
             (onChangeName "Bob" (fire SubmitForm typed_ann))) SubmitForm
     = None.
Proof.
  split; [reflexivity|].
  pose proof (X7_no_second_submission_while_pending
                typed_ann (fire SubmitForm typed_ann) "Bob" "bob@x.com" ann
                eq_refl) as (_ & H & _).
  exact H.
Defined.

Lemma not_both_pending (l : list Pending) :
  length (List.filter is_submission l) <= 1 ->
  existsb is_add l && existsb is_update l = false.
Proof.
  induction l as [|p l IH]; [done|]. destruct p; cbn.
  - intros H. assert (List.filter is_submission l = []) as Hnil
      by (destruct (List.filter is_submission l); [done | cbn in H; lia]).
    apply idle_iff, orb_false_elim in Hnil as [_ ->]. done.
  - intros H. assert (List.filter is_submission l = []) as Hnil
      by (destruct (List.filter is_submission l); [done | cbn in H; lia]).
    apply idle_iff, orb_false_elim in Hnil as [-> _]. done.
  - exact IH.
Qed.

(** X8.  In every world the mounted component reaches, at most one
    create or update is in flight, so the add hook and the update hook
    are never pending together. *)
Theorem X8_at_most_one_submission_in_flight (evs : list Event) (w : World) :
  run evs mounted = Some w ->
  length (submissions w) <= 1
  /\ addMutation_isPending w && updateMutation_isPending w = false.
Proof.
  intros Hrun.
  assert (length (submissions w) <= 1) as Hone.
  { eapply one_submission; [exact Hrun | cbn; lia]. }
  split; [exact Hone|]. by apply not_both_pending.
Qed.

Lemma X8_witness :
  run [QuerySettles (Fulfilled [bob]); InputName "Ann";
       InputEmail "ann@x.com"; SubmitForm] mounted
  = Some (fire SubmitForm typed_ann)
  /\ length (submissions (fire SubmitForm typed_ann)) <= 1.
Proof.
  split; [reflexivity|].
  pose proof (X8_at_most_one_submission_in_flight
                [QuerySettles (Fulfilled [bob]); InputName "Ann";
                 InputEmail "ann@x.com"; SubmitForm]
                (fire SubmitForm typed_ann) eq_refl) as [H _].
  exact H.
Defined.

(** ** Failures *)

(** X9.  A failed create, update or delete is not retried and triggers
    no refetch: the failure sends no request and leaves the cache, the
    fetch flag, the form and the selection as they are; the failed
    mutation is the only one taken out of flight. *)
Theorem X9_failure_sends_nothing (w : World) (ev : Event) (w' : World) :
  step w ev = Some w' ->
  match ev with
  | AddSettles i (Rejected _)
  | UpdateSettles i (Rejected _)
  | DeleteSettles i (Rejected _) =>
      network w' = network w
      /\ users w' = users w
      /\ isFetching w' = isFetching w
      /\ newUser w' = newUser w
      /\ editingUser w' = editingUser w
      /\ mutations w' = delete i (mutations w)
  | _ => True
  end.
Proof.
  intros Hstep.
  destruct ev as [| | | | | | |i [r|e]|i [r|e]|i [r|e]]; try exact I;
    on_step Hstep; repeat split.
Qed.

Lemma X9_witness :
  step deleting_ann (DeleteSettles 0 (Rejected network_error))
  = Some (fire (DeleteSettles 0 (Rejected network_error)) deleting_ann)
  /\ network (fire (DeleteSettles 0 (Rejected network_error)) deleting_ann)
     = network deleting_ann
  /\ mutations (fire (DeleteSettles 0 (Rejected network_error)) deleting_ann)
     = [].
Proof.
  split; [reflexivity|].
  pose proof (X9_failure_sends_nothing
                deleting_ann (DeleteSettles 0 (Rejected network_error))
                (fire (DeleteSettles 0 (Rejected network_error)) deleting_ann)
                eq_refl) as (Hnet & _ & _ & _ & _ & Hm).
  split; [exact Hnet | exact Hm].
Defined.

(** ** The banner *)

Lemma banner_is_message w :
  errorMessage w <> Some "" -> banner (page w) = errorMessage w.
Proof.
  intros H. cbn. destruct (errorMessage w) as [text|]; [|done].
  rewrite bool_decide_eq_false_2; [done|]. intros ->. by apply H.
Qed.

Lemma step_message_not_empty w ev w' :
  step w ev = Some w' ->
  errorMessage w <> Some "" -> errorMessage w' <> Some "".
Proof.
  intros H Hne.
  destruct ev as [| | | | |id [[]]|[l|e]|i [r|e]|i [r|e]|i [r|e]];
    on_step H; try exact Hne; try discriminate.
  unfold handleAddOrUpdate. destruct (editingUser w); exact Hne.
Qed.

(** X10.  In every world the mounted component reaches, the error
    message is never the empty string, so the banner shows exactly the
    error message state: it is on screen whenever a message is set. *)
Theorem X10_banner_shows_the_message (evs : list Event) (w : World) :
  run evs mounted = Some w ->
  banner (page w) = errorMessage w /\ errorMessage w <> Some "".
Proof.
  intros Hrun.
  assert (forall w0, run evs w0 = Some w ->
            errorMessage w0 <> Some "" -> errorMessage w <> Some "") as Hinv.
  { clear Hrun. induction evs as [|ev evs IH]; intros w0 Hrun H0.
    - by injection Hrun as <-.
    - cbn [run] in Hrun. destruct (step w0 ev) as [w1|] eqn:Hstep;
        [|discriminate].
      eapply IH; [exact Hrun|]. by eapply step_message_not_empty. }
  assert (errorMessage w <> Some "") as Hne
      by (eapply Hinv; [exact Hrun | discriminate]).
  split; [by apply banner_is_message | exact Hne].
Qed.

Lemma X10_witness :
  run [QuerySettles (Fulfilled [ann; bob]); DeleteDialog "42" yes;
       DeleteSettles 0 (Rejected network_error)] mounted
  = Some (fire (DeleteSettles 0 (Rejected network_error)) deleting_ann)
  /\ banner (page (fire (DeleteSettles 0 (Rejected network_error))
                     deleting_ann))
     = errorMessage (fire (DeleteSettles 0 (Rejected network_error))
                       deleting_ann).
Proof.
  split; [reflexivity|].
  pose proof (X10_banner_shows_the_message
                [QuerySettles (Fulfilled [ann; bob]); DeleteDialog "42" yes;
                 DeleteSettles 0 (Rejected network_error)]
                (fire (DeleteSettles 0 (Rejected network_error)) deleting_ann)
                eq_refl) as [H _].
  exact H.
Defined.

(** X11.  The error message is changed only by choosing a record, by the
    clear control and by the outcome of a mutation: typing, submitting,
    answering the delete dialog and a settling fetch leave it as it is,
    so an old failure stays on screen while the next attempt is typed
    and pending. *)
Theorem X11_message_stays_until_outcome (w : World) (ev : Event) (w' : World) :
  step w ev = Some w' ->
  match ev with
  | InputName _ | InputEmail _ | SubmitForm
  | DeleteDialog _ _ | QuerySettles _ =>
      errorMessage w' = errorMessage w
  | ClickClear | ClickEdit _ => errorMessage w' = None
  | _ => True
  end.
Proof.
  intros H.
  destruct ev as [| | | | |id [[]]|[l|e]|i r|i r|i r]; try exact I;
    on_step H; try reflexivity.
  unfold handleAddOrUpdate. destruct (editingUser w); reflexivity.
Qed.

Lemma X11_witness :
  step (setErrorMessage (Some "Qo‘shishda xato: Network Error") typed_ann)
       SubmitForm
  = Some (fire SubmitForm
            (setErrorMessage (Some "Qo‘shishda xato: Network Error")
               typed_ann))
  /\ errorMessage
       (fire SubmitForm
          (setErrorMessage (Some "Qo‘shishda xato: Network Error") typed_ann))
     = Some "Qo‘shishda xato: Network Error".
Proof.
  split; [reflexivity|].
  exact (X11_message_stays_until_outcome
           (setErrorMessage (Some "Qo‘shishda xato: Network Error") typed_ann)
           SubmitForm _ eq_refl).
Defined.

(** ** The deleting marker *)

(** X12.  The marker holds one id, the one confirmed last.  With the
    deletes of two different records confirmed one after the other, both
    calls are in flight but only the second record's control is
    disabled; and when the first call settles, with either outcome, the
    marker is cleared although the second delete is still in flight, so
    that record's control is enabled again too. *)
Theorem X12_marker_follows_latest_delete
    (a b n m : string) (w : World) (reply : Settled unit) :
  a <> b ->
  (deletingId (handleDelete b yes (handleDelete a yes w)) = Some b
   /\ mutations (handleDelete b yes (handleDelete a yes w))
      = mutations w ++ [deletePending a; deletePending b]
   /\ network (handleDelete b yes (handleDelete a yes w))
      = network w ++ [axios_delete (API_URL +:+ "/" +:+ a);
                      axios_delete (API_URL +:+ "/" +:+ b)]
   /\ delete_disabled
        (row (handleDelete b yes (handleDelete a yes w)) (User.mk a n m))
      = false
   /\ delete_disabled
        (row (handleDelete b yes (handleDelete a yes w)) (User.mk b n m))
      = true)
  /\ (deletingId
        (fire (DeleteSettles (length (mutations w)) reply)
           (handleDelete b yes (handleDelete a yes w))) = None
      /\ mutations
           (fire (DeleteSettles (length (mutations w)) reply)
              (handleDelete b yes (handleDelete a yes w)))
         = mutations w ++ [deletePending b]
      /\ delete_disabled
           (row (fire (DeleteSettles (length (mutations w)) reply)
                   (handleDelete b yes (handleDelete a yes w)))
              (User.mk b n m))
         = false).
Proof.
  intros Hab. split.
  - cbn. rewrite <- !app_assoc. cbn. repeat split.
    + apply bool_decide_eq_false_2. intros [= ->]. by apply Hab.
    + by apply bool_decide_eq_true_2.
  - cbn. rewrite <- !app_assoc. cbn.
    rewrite list_lookup_middle by done. cbn.
    destruct reply; cbn; rewrite <- ?app_assoc; cbn;
      rewrite delete_middle; repeat split.
Qed.

Lemma X12_witness :
  "42" <> "7"
  /\ deletingId (handleDelete "7" yes (handleDelete "42" yes
                                          (loaded [ann; bob]))) = Some "7"
  /\ deletingId
       (fire (DeleteSettles 0 (Fulfilled ()))
          (handleDelete "7" yes (handleDelete "42" yes (loaded [ann; bob]))))
     = None
  /\ mutations
       (fire (DeleteSettles 0 (Fulfilled ()))
          (handleDelete "7" yes (handleDelete "42" yes (loaded [ann; bob]))))
     = [deletePending "7"].
Proof.
  assert ("42" <> "7") as Hne by discriminate.
  split; [exact Hne|].
  pose proof (X12_marker_follows_latest_delete
                "42" "7" "" "" (loaded [ann; bob]) (Fulfilled ()) Hne)
    as [(Hmark & _) (Hcleared & Hleft & _)].
  split; [exact Hmark|]. split; [exact Hcleared | exact Hleft].
Defined.

Lemma disabled_rows_of_distinct_keys (d : option string) (rs : list Row) :
  Forall (fun r => delete_disabled r = bool_decide (d = Some (key r))) rs ->
  NoDup (key <$> rs) ->
  length (List.filter delete_disabled rs) <= 1.
Proof.
  induction rs as [|r rs IH]; intros Hall Hnd; [cbn; lia|].
  apply Forall_cons in Hall as [Hr Hall].
  rewrite fmap_cons in Hnd. apply NoDup_cons in Hnd as [Hnotin Hnd].
  specialize (IH Hall Hnd). cbn [List.filter].
  destruct (delete_disabled r) eqn:Hd; [|exact IH].
  symmetry in Hr. apply bool_decide_eq_true_1 in Hr.
  assert (List.filter delete_disabled rs = []) as ->; [|cbn; lia].
  clear IH Hnd. induction rs as [|r' rs IH]; [done|].
  apply Forall_cons in Hall as [Hr' Hall].
  rewrite fmap_cons in Hnotin. apply not_elem_of_cons in Hnotin as [Hne Hnotin].
  cbn [List.filter]. rewrite Hr'.
  rewrite bool_decide_eq_false_2; [by apply IH|].
  intros Hd'. rewrite Hr in Hd'. injection Hd' as Hk. by apply Hne.
Qed.

(** X13.  A delete control is disabled exactly on the rows whose id is
    the marker; when the listed ids are distinct, at most one row has
    its delete control disabled. *)
Theorem X13_at_most_one_delete_control_disabled (w : World) :
  NoDup (key <$> rows (page w)) ->
  Forall (fun r => delete_disabled r = bool_decide (deletingId w = Some (key r)))
         (rows (page w))
  /\ length (List.filter delete_disabled (rows (page w))) <= 1.
Proof.
  intros Hnd.
  assert (Forall (fun r => delete_disabled r
                           = bool_decide (deletingId w = Some (key r)))
                 (rows (page w))) as Hall.
  { cbn. destruct (users w) as [l|]; [|constructor].
    apply Forall_fmap, Forall_forall. intros u _. reflexivity. }
  split; [exact Hall|].
  by eapply disabled_rows_of_distinct_keys.
Qed.

Lemma X13_witness :
  NoDup (key <$> rows (page deleting_ann))
  /\ length (List.filter delete_disabled (rows (page deleting_ann))) <= 1.
Proof.
  assert (NoDup (key <$> rows (page deleting_ann))) as Hnd.
  { apply NoDup_cons. split; [|apply NoDup_singleton].
    intros [E|E]%elem_of_cons; [discriminate E | by apply elem_of_nil in E]. }
  split; [exact Hnd|].
  pose proof (X13_at_most_one_delete_control_disabled deleting_ann Hnd)
    as [_ H].
  exact H.
Defined.

(** ** The screen after a fetch *)

(** X14.  The outcome of a fetch decides the screen.  A delivered list
    puts the form on screen with one row per delivered record, in the
    delivered order and with the delivered id, name and email.  A failed
    fetch replaces the whole page by the text of the failure: the cached
    list is kept but not shown, a mutation's error message is kept but
    not shown, and the form controls are gone, so nothing can be
    submitted or cleared. *)
Theorem X14_fetch_outcome_decides_screen
    (w : World) (reply : Settled (list User)) (w' : World) :
  step w (QuerySettles reply) = Some w' ->
  match reply with
  | Fulfilled l =>
      render w' = Form (page w')
      /\ users w' = Some l
      /\ (fun r => (key r, row_name r, row_email r)) <$> rows (page w')
         = (fun u => (User.id u, User.name u, User.email u)) <$> l
  | Rejected e =>
      render w' = QueryFailed ("Xatolik: " +:+ message e)
      /\ users w' = users w
      /\ errorMessage w' = errorMessage w
      /\ step w' SubmitForm = None
      /\ step w' ClickClear = None
  end.
Proof.
  intros H. apply step_Some in H as [_ ->]. destruct reply as [l|e]; cbn.
  - split; [reflexivity|]. split; [reflexivity|].
    rewrite <- list_fmap_compose. reflexivity.
  - repeat split.
Qed.

Lemma X14_witness :
  step (invalidateQueries (loaded [ann; bob]))
       (QuerySettles (Rejected network_error))
  = Some (fire (QuerySettles (Rejected network_error))
            (invalidateQueries (loaded [ann; bob])))
  /\ render (fire (QuerySettles (Rejected network_error))
               (invalidateQueries (loaded [ann; bob])))
     = QueryFailed "Xatolik: Network Error"
  /\ users (fire (QuerySettles (Rejected network_error))
              (invalidateQueries (loaded [ann; bob])))
     = Some [ann; bob].
Proof.
  split; [reflexivity|].
  pose proof (X14_fetch_outcome_decides_screen
                (invalidateQueries (loaded [ann; bob]))
                (Rejected network_error)
                (fire (QuerySettles (Rejected network_error))
                   (invalidateQueries (loaded [ann; bob])))
                eq_refl) as (Hscreen & Hcache & _).
  split; [exact Hscreen | exact Hcache].
Defined.

(** ** The calls the component makes *)

Lemma step_network w ev w' :
  step w ev = Some w' ->
  network w' =
    network w ++
    match ev with
    | SubmitForm =>
        [match editingUser w with
         | Some editing =>
             axios_put (API_URL +:+ "/" +:+ User.id editing) (newUser w)
         | None => axios_post API_URL (newUser w)
         end]
    | DeleteDialog id result =>
        if isConfirmed result
        then [axios_delete (API_URL +:+ "/" +:+ id)]
        else []
    | AddSettles _ (Fulfilled _)
    | UpdateSettles _ (Fulfilled _)
    | DeleteSettles _ (Fulfilled _) => [axios_get API_URL]
    | _ => []
    end.
Proof.
  intros H.
  destruct ev as [| | | | |id [[]]|[l|e]|i [r|e]|i [r|e]|i [r|e]];
    on_step H; rewrite ?app_nil_r; try reflexivity.
  unfold handleAddOrUpdate.
  destruct (editingUser w); destruct (newUser w); reflexivity.
Qed.

(** X15.  Every event sends exactly the calls listed here and no other:
    a submission one call (a PUT on the selected record's path if a
    record is selected, otherwise a POST to the collection), a confirmed
    delete dialog one DELETE on the record's path, a successful mutation
    one GET of the collection; typing, choosing, clearing, an
    unconfirmed dialog, a failed mutation and a settling fetch send
    nothing. *)
Theorem X15_calls_per_event (w : World) (ev : Event) (w' : World) :
  step w ev = Some w' ->
  network w' =
    network w ++
    match ev with
    | SubmitForm =>
        [match editingUser w with
         | Some editing =>
             axios_put (API_URL +:+ "/" +:+ User.id editing) (newUser w)
         | None => axios_post API_URL (newUser w)
         end]
    | DeleteDialog id result =>
        if isConfirmed result
        then [axios_delete (API_URL +:+ "/" +:+ id)]
        else []
    | AddSettles _ (Fulfilled _)
    | UpdateSettles _ (Fulfilled _)
    | DeleteSettles _ (Fulfilled _) => [axios_get API_URL]
    | _ => []
    end.
Proof. apply step_network. Qed.

Lemma X15_witness :
  step editing_ann SubmitForm = Some (fire SubmitForm editing_ann)
  /\ network (fire SubmitForm editing_ann)
     = network editing_ann
       ++ [axios_put (API_URL +:+ "/42") (NewUser.mk "Anna" "ann@x.com")].
Proof.
  split; [reflexivity|].
  exact (X15_calls_per_event editing_ann SubmitForm
           (fire SubmitForm editing_ann) eq_refl).
Defined.

Lemma record_path_well_formed (id : string) :
  is_record_path (API_URL +:+ "/" +:+ id) = true.
Proof.
  unfold is_record_path.
  change (API_URL +:+ "/" +:+ id) with ((API_URL +:+ "/") +:+ id).
  apply prefix_append.
Qed.

(** X16.  In every world the mounted component reaches, every call made
    so far has one of the four shapes of the collection client: a GET or
    a POST on the collection path, a PUT or a DELETE on a record path
    below it, with a body on POST and PUT and none on GET and DELETE. *)
Theorem X16_only_well_formed_calls (evs : list Event) (w : World) :
  run evs mounted = Some w ->
  Forall (fun r => well_formed r = true) (network w).
Proof.
  assert (forall w0, run evs w0 = Some w ->
            Forall (fun r => well_formed r = true) (network w0) ->
            Forall (fun r => well_formed r = true) (network w)) as Hinv.
  { induction evs as [|ev evs IH]; intros w0 Hrun H0.
    - by injection Hrun as <-.
    - cbn [run] in Hrun. destruct (step w0 ev) as [w1|] eqn:Hstep;
        [|discriminate].
      eapply IH; [exact Hrun|].
      rewrite (step_network _ _ _ Hstep). apply Forall_app. split; [exact H0|].
      destruct ev as [| | | | |id [[]]|[l|e]|i [r|e]|i [r|e]|i [r|e]];
        repeat constructor.
      + destruct (editingUser w0); [|reflexivity].
        apply record_path_well_formed.
      + apply record_path_well_formed. }
  intros Hrun. eapply Hinv; [exact Hrun|]. repeat constructor.
Qed.

Lemma X16_witness :
  run [QuerySettles (Fulfilled [ann; bob]); DeleteDialog "42" yes] mounted
  = Some deleting_ann
  /\ Forall (fun r => well_formed r = true) (network deleting_ann).
Proof.
  split; [reflexivity|].
  exact (X16_only_well_formed_calls
           [QuerySettles (Fulfilled [ann; bob]); DeleteDialog "42" yes]
           deleting_ann eq_refl).
Defined.
